(** * Connectivity processor: the data pipeline of [app.py]

    A shallow embedding of the transformation pipeline of [src/app.py]
    (cleaning, key derivation, aggregation, left join, classification and
    summary), with the pandas operations the script calls written out as
    functions on lists of records.

    Conventions.
    - A DataFrame is a list of rows (records), in row order; an elementwise
      column assignment is a map over the rows.
    - A cell of an object column is a [cell]: the missing value [NaN], a
      string, or an integer.  Float cells other than NaN are not modelled.
      The columns the script reaches through [.str] are object columns.
    - Text is ASCII: [str.upper] maps [a-z] to [A-Z], [str.strip] removes
      the code points Python's [str.isspace] accepts below 128.
    - Timestamps are integers; the scalar parsers behind [pd.to_datetime]
      and [pd.to_numeric] are parameters of the pipeline.
    - pandas is taken with its classic (1.x / 2.x) object-column semantics:
      [astype(str)] renders a missing value as the text [nan]; [groupby]
      sorts its keys and drops rows with a missing key; the aggregations
      ['count'], ['max'] and ['last'] skip missing values. *)

From Stdlib Require Import String Ascii ZArith Lia Bool Arith List.
From Stdlib Require Import DecimalString.
From Stdlib Require Import Sorted.
Import ListNotations.
Open Scope string_scope.
Open Scope list_scope.

(** ** Python strings *)

Module PyStr.

(** [c.upper()] for one ASCII character. *)
Definition upper_char (c : ascii) : ascii :=
  let n := nat_of_ascii c in
  if ((97 <=? n) && (n <=? 122))%nat then ascii_of_nat (n - 32) else c.

(** [s.upper()] *)
Fixpoint upper (s : string) : string :=
  match s with
  | EmptyString => EmptyString
  | String c r => String (upper_char c) (upper r)
  end.

(** [c.isspace()] on ASCII: TAB, LF, VT, FF, CR, FS, GS, RS, US, SPACE. *)
Definition isspace (c : ascii) : bool :=
  let n := nat_of_ascii c in
  (((9 <=? n) && (n <=? 13)) || ((28 <=? n) && (n <=? 32)))%nat.

(** [s.lstrip()] *)
Fixpoint lstrip (s : string) : string :=
  match s with
  | EmptyString => EmptyString
  | String c r => if isspace c then lstrip r else s
  end.

(** [s.rstrip()] *)
Fixpoint rstrip (s : string) : string :=
  match s with
  | EmptyString => EmptyString
  | String c r =>
      match rstrip r with
      | EmptyString => if isspace c then EmptyString else String c EmptyString
      | r' => String c r'
      end
  end.

(** [s.strip()] *)
Definition strip (s : string) : string := rstrip (lstrip s).

(** [s.split(sep)[0]] for a one-character separator: the text before the
    first occurrence of [sep], the whole of [s] when there is none. *)
Fixpoint split_first (sep : ascii) (s : string) : string :=
  match s with
  | EmptyString => EmptyString
  | String c r => if Ascii.eqb c sep then EmptyString else String c (split_first sep r)
  end.

(** [s.replace(old, "")] for a one-character [old]. *)
Fixpoint remove_char (old : ascii) (s : string) : string :=
  match s with
  | EmptyString => EmptyString
  | String c r => if Ascii.eqb c old then remove_char old r else String c (remove_char old r)
  end.

(** [str(z)] for an integer. *)
Definition str_of_int (z : Z) : string := NilZero.string_of_int (Z.to_int z).


End PyStr.

(** ** Cells and the [Series.str] accessor *)

Inductive cell : Type :=
| NaN
| Str (s : string)
| Int (z : Z).

Definition isna (c : cell) : bool :=
  match c with NaN => true | _ => false end.

Definition notna (c : cell) : bool := negb (isna c).

Definition cell_eqb (a b : cell) : bool :=
  match a, b with
  | NaN, NaN => true
  | Str s, Str t => String.eqb s t
  | Int x, Int y => Z.eqb x y
  | _, _ => false
  end.

(** [Series.astype(str)] on one cell: Python's [str] of the value; the
    missing value becomes the text [nan]. *)
Definition astype_str (c : cell) : cell :=
  match c with
  | NaN => Str "nan"
  | Str s => Str s
  | Int z => Str (PyStr.str_of_int z)
  end.

(** A [Series.str] method applies the string function to strings and gives
    the missing value for everything else. *)
Definition str_method (f : string -> string) (c : cell) : cell :=
  match c with
  | Str s => Str (f s)
  | _ => NaN
  end.

Definition str_upper : cell -> cell := str_method PyStr.upper.
Definition str_strip : cell -> cell := str_method PyStr.strip.
(** [.str.split('-').str[0]] *)
Definition str_split_first (sep : ascii) : cell -> cell :=
  str_method (PyStr.split_first sep).
(** [.str.replace(" ", "", regex=False)] *)
Definition str_remove (old : ascii) : cell -> cell :=
  str_method (PyStr.remove_char old).

(** The device identifier, as both sides derive it:
    [.astype(str).str.split('-').str[0].str.upper().str.strip()] *)
Definition derive_id (raw : cell) : cell :=
  str_strip (str_upper (str_split_first "-" (astype_str raw))).

(** The same derivation on the text itself. *)
Definition derive_text (s : string) : string :=
  PyStr.strip (PyStr.upper (PyStr.split_first "-" s)).

(** ** Exceptions *)

(** What the script can run into: a parser's [ValueError], and the
    validation messages followed by [st.stop()]. *)
Inductive exn : Type :=
| ValueError
| Stop (msg : string).

Definition result (A : Type) : Type := (exn + A)%type.

Definition ret {A} (a : A) : result A := inr a.
Definition raise {A} (e : exn) : result A := inl e.
Definition bind {A B} (m : result A) (k : A -> result B) : result B :=
  match m with
  | inl e => inl e
  | inr a => k a
  end.

Notation "x <- m ;; k" := (bind m (fun x => k))
  (at level 61, m at next level, right associativity).

Fixpoint mapM {A B} (f : A -> result B) (l : list A) : result (list B) :=
  match l with
  | [] => ret []
  | a :: t => b <- f a ;; bs <- mapM f t ;; ret (b :: bs)
  end.

(** The [errors=] argument of [pd.to_datetime] and [pd.to_numeric]. *)
Inductive errors_mode : Type := errors_raise | errors_coerce.

(** One value through a pandas converter whose scalar parser is [parse]:
    a missing value stays missing; a value the parser rejects raises under
    [errors='raise'] and becomes missing under [errors='coerce']. *)
Definition convert {A} (parse : cell -> option A) (errors : errors_mode)
    (arg : cell) : result (option A) :=
  match arg with
  | NaN => ret None
  | _ =>
      match parse arg with
      | Some v => ret (Some v)
      | None =>
          match errors with
          | errors_raise => raise ValueError
          | errors_coerce => ret None
          end
      end
  end.

(** What [errors='coerce'] leaves of a value: its parse, missing when the
    value is missing or does not parse. *)
Definition coerced {A} (parse : cell -> option A) (arg : cell) : option A :=
  match arg with
  | NaN => None
  | _ => parse arg
  end.

(** ** Tables *)

(** A run-log row restricted to [required_cols], in that order.  [T] is the
    type of the two date columns and [N] of the three Ct columns. *)
Module Run.
Record t (T N : Type) : Type := mk {
  Test_date_time : T;
  Profile_id : cell;
  Patient_id : cell;
  Test_result : cell;
  Test_status : cell;
  Lab_name : cell;
  User_name : cell;
  Sample_type : cell;
  Truelab_id : cell;
  Lot : cell;
  Chip_serial_no : cell;
  Ct1 : N;
  Ct2 : N;
  Ct3 : N;
  Load1 : cell;
  Load2 : cell;
  Load3 : cell;
  Bayno : cell;
  Chip_batchno : cell;
  Result_recieved_date : T
}.
Arguments mk {T N}.
Arguments Test_date_time {T N}.
Arguments Profile_id {T N}.
Arguments Patient_id {T N}.
Arguments Test_result {T N}.
Arguments Test_status {T N}.
Arguments Lab_name {T N}.
Arguments User_name {T N}.
Arguments Sample_type {T N}.
Arguments Truelab_id {T N}.
Arguments Lot {T N}.
Arguments Chip_serial_no {T N}.
Arguments Ct1 {T N}.
Arguments Ct2 {T N}.
Arguments Ct3 {T N}.
Arguments Load1 {T N}.
Arguments Load2 {T N}.
Arguments Load3 {T N}.
Arguments Bayno {T N}.
Arguments Chip_batchno {T N}.
Arguments Result_recieved_date {T N}.
(** As read from the CSV files. *)
Definition raw : Type := t cell cell.
End Run.

(** The columns of the master sheet the script reads, under their headers
    (after [mst.columns.str.strip()]). *)
Module Master.
Record t : Type := mk {
  Zone : cell;
  Account_Name : cell;                (* 'Account Name' *)
  Billing_State_Province : cell;      (* 'Billing State/Province' *)
  Account_Owner_Full_Name : cell;     (* 'Account Owner: Full Name' *)
  Type_ : cell;                       (* 'Type' *)
  Serial_Batch : cell                 (* 'Serial / Batch ID: Serial / Batch #' *)
}.
End Master.

(** [mst] after the rename and the column selection. *)
Module Mst.
Record t : Type := mk {
  Zone : cell;
  Lab_name_Masterlist : cell;
  State : cell;
  Account_Owner : cell;
  Customer_Type : cell;
  Truelab_id : cell
}.
End Mst.

(** A row of [runs_summary]. *)
Module Agg.
Record t : Type := mk {
  Truelab_id : cell;
  Total_Runs : Z;
  Last_Run_Date : option Z;
  Lab_name_Dashboard : cell
}.
End Agg.

(** A row of [pd.merge(mst, runs_summary, on='Truelab_id', how='left')]:
    the right-hand columns are missing where nothing matched. *)
Module Merged.
Record t : Type := mk {
  left : Mst.t;
  Total_Runs : option Z;
  Last_Run_Date : option Z;
  Lab_name_Dashboard : cell
}.
End Merged.

(** A row of [final], in its column order. *)
Module Final.
Record t : Type := mk {
  index : Z;
  Zone : cell;
  Lab_name_Masterlist : cell;
  State : cell;
  Account_Owner : cell;
  Customer_Type : cell;
  Truelab_id : cell;
  Lab_name_Dashboard : cell;
  Last_Run_Date : option Z;
  Total_Runs : Z;
  Status : string
}.
(** The master-list columns of a report row. *)
Definition account (r : t) : Mst.t :=
  Mst.mk (Zone r) (Lab_name_Masterlist r) (State r) (Account_Owner r)
         (Customer_Type r) (Truelab_id r).
End Final.

(** A row of [summary]. *)
Module Summary.
Record t : Type := mk {
  State : cell;
  Customer_Type : cell;
  Active_Count : Z;
  Inactive_Count : Z;
  Total_Count : Z
}.
End Summary.

(** ** Group-by, aggregations and joins *)

(** The order in which pandas sorts group keys of mixed type: integers
    before strings, integers by value and strings by code point. *)
Definition cell_ltb (a b : cell) : bool :=
  match a, b with
  | Int x, Int y => Z.ltb x y
  | Int _, _ => true
  | Str s, Str t => String.ltb s t
  | Str _, NaN => true
  | _, _ => false
  end.

Definition key2 : Type := (cell * cell)%type.

Definition key2_eqb (a b : key2) : bool :=
  cell_eqb (fst a) (fst b) && cell_eqb (snd a) (snd b).

Definition key2_ltb (a b : key2) : bool :=
  cell_ltb (fst a) (fst b) || (cell_eqb (fst a) (fst b) && cell_ltb (snd a) (snd b)).

Definition key2_notna (k : key2) : bool := notna (fst k) && notna (snd k).

Section SortedKeys.
Context {K : Type} (eqb ltb : K -> K -> bool).

Fixpoint insert_sorted (k : K) (ks : list K) : list K :=
  match ks with
  | [] => [k]
  | h :: t => if ltb k h then k :: ks else h :: insert_sorted k t
  end.

Definition add_key (k : K) (ks : list K) : list K :=
  if existsb (eqb k) ks then ks else insert_sorted k ks.

(** The distinct values of [ks], in ascending order. *)
Definition sorted_unique (ks : list K) : list K :=
  fold_right add_key [] ks.
End SortedKeys.

(** ['count']: the number of non-missing values. *)
Definition agg_count (col : list cell) : Z :=
  Z.of_nat (List.length (filter notna col)).

(** ['max'] on timestamps: the largest non-missing value, missing when
    there is none. *)
Definition agg_max (col : list (option Z)) : option Z :=
  fold_left
    (fun acc v =>
       match acc, v with
       | None, _ => v
       | Some _, None => acc
       | Some a, Some b => Some (Z.max a b)
       end)
    col None.

(** ['last']: the last non-missing value in row order, missing when there
    is none. *)
Definition agg_last (col : list cell) : cell :=
  fold_left (fun acc v => if isna v then acc else v) col NaN.

(** [.size()]: the number of rows. *)
Definition agg_size {A} (rows : list A) : Z := Z.of_nat (List.length rows).

(** ** The pipeline *)

Section Pipeline.
(** Timestamps are integers (nanoseconds since the epoch); [F] is the
    type of floating-point numbers.  [parse_datetime] and [parse_numeric]
    are the scalar parsers behind [pd.to_datetime] and [pd.to_numeric]:
    [None] is a value that fails to parse. *)
Variable F : Type.
Variable parse_datetime : cell -> option Z.
Variable parse_numeric : cell -> option F.

Definition to_datetime : errors_mode -> cell -> result (option Z) :=
  convert parse_datetime.
Definition to_numeric : errors_mode -> cell -> result (option F) :=
  convert parse_numeric.

Definition run : Type := Run.t (option Z) (option F).

(** [pd.concat([pd.read_csv(file) for file in csv_files], ignore_index=True)] *)
Definition pd_concat (frames : list (list Run.raw)) : list Run.raw :=
  concat frames.

(** [df_r[df_r['User_name'] != 'Service']]: an elementwise [!=], true for
    a missing value. *)
Definition not_service (r : Run.raw) : bool :=
  negb (cell_eqb (Run.User_name r) (Str "Service")).

(** The column assignments of the cleaning block, applied to one row in
    the order of the script. *)
Definition clean_row (r : Run.raw) : result run :=
  let lab_name := str_strip (str_upper (Run.Lab_name r)) in
  let lot := str_remove " " (str_upper (Run.Lot r)) in
  test_date_time <- to_datetime errors_coerce (Run.Test_date_time r) ;;
  result_recieved_date <- to_datetime errors_coerce (Run.Result_recieved_date r) ;;
  ct1 <- to_numeric errors_coerce (Run.Ct1 r) ;;
  ct2 <- to_numeric errors_coerce (Run.Ct2 r) ;;
  ct3 <- to_numeric errors_coerce (Run.Ct3 r) ;;
  let truelab_id := derive_id (Run.Truelab_id r) in
  ret (Run.mk test_date_time (Run.Profile_id r) (Run.Patient_id r)
         (Run.Test_result r) (Run.Test_status r) lab_name (Run.User_name r)
         (Run.Sample_type r) truelab_id lot (Run.Chip_serial_no r)
         ct1 ct2 ct3 (Run.Load1 r) (Run.Load2 r) (Run.Load3 r)
         (Run.Bayno r) (Run.Chip_batchno r) result_recieved_date).

(** The row [clean_row] returns when nothing raises. *)
Definition cleaned (r : Run.raw) : run :=
  Run.mk (coerced parse_datetime (Run.Test_date_time r))
         (Run.Profile_id r) (Run.Patient_id r)
         (Run.Test_result r) (Run.Test_status r)
         (str_strip (str_upper (Run.Lab_name r))) (Run.User_name r)
         (Run.Sample_type r) (derive_id (Run.Truelab_id r))
         (str_remove " " (str_upper (Run.Lot r))) (Run.Chip_serial_no r)
         (coerced parse_numeric (Run.Ct1 r))
         (coerced parse_numeric (Run.Ct2 r))
         (coerced parse_numeric (Run.Ct3 r))
         (Run.Load1 r) (Run.Load2 r) (Run.Load3 r)
         (Run.Bayno r) (Run.Chip_batchno r)
         (coerced parse_datetime (Run.Result_recieved_date r)).

(** The cleaning block: the Service filter, then the column assignments. *)
Definition clean (df_r : list Run.raw) : result (list run) :=
  mapM clean_row (filter not_service df_r).

(** The rows of the group of [k]. *)
Definition group (df_r : list run) (k : cell) : list run :=
  filter (fun r => cell_eqb (Run.Truelab_id r) k) df_r.

(** The group keys of [df_r.groupby('Truelab_id')]: distinct, ascending,
    rows with a missing key dropped. *)
Definition group_keys (df_r : list run) : list cell :=
  sorted_unique cell_eqb cell_ltb (filter notna (map Run.Truelab_id df_r)).

(** [df_r.groupby('Truelab_id').agg(Total_Runs=('Patient_id', 'count'),
      Last_Run_Date=('Test_date_time', 'max'),
      Lab_name_Dashboard=('Lab_name', 'last')).reset_index()] *)
Definition runs_summary (df_r : list run) : list Agg.t :=
  map (fun k =>
         let g := group df_r k in
         Agg.mk k
           (agg_count (map Run.Patient_id g))
           (agg_max (map Run.Test_date_time g))
           (agg_last (map Run.Lab_name g)))
      (group_keys df_r).
End Pipeline.

(** The master-file block: key derivation, rename, column selection and the
    upper-cased, stripped account name. *)
Definition clean_master_row (m : Master.t) : Mst.t :=
  Mst.mk (Master.Zone m)
         (str_strip (str_upper (Master.Account_Name m)))
         (Master.Billing_State_Province m)
         (Master.Account_Owner_Full_Name m)
         (Master.Type_ m)
         (derive_id (Master.Serial_Batch m)).

Definition clean_master (mst : list Master.t) : list Mst.t :=
  map clean_master_row mst.

(** The rows of [runs_summary] whose key equals that of the account. *)
Definition matches (a : Mst.t) (runs_summary : list Agg.t) : list Agg.t :=
  filter (fun g => cell_eqb (Agg.Truelab_id g) (Mst.Truelab_id a)) runs_summary.

(** One left row through the join: once per matching right row, in the
    order of the right table, or once with the right-hand columns missing
    when nothing matches. *)
Definition joined (a : Mst.t) (rs : list Agg.t) : list Merged.t :=
  match matches a rs with
  | [] => [Merged.mk a None None NaN]
  | gs =>
      map (fun g => Merged.mk a (Some (Agg.Total_Runs g))
                      (Agg.Last_Run_Date g) (Agg.Lab_name_Dashboard g))
          gs
  end.

(** [pd.merge(mst, runs_summary, on='Truelab_id', how='left')]: the left
    rows in order, each once per matching right row, or once with missing
    right-hand columns when nothing matches. *)
Definition merge_left (mst : list Mst.t) (runs_summary : list Agg.t) : list Merged.t :=
  flat_map (fun a => joined a runs_summary) mst.

(** [np.where(final['Total_Runs'].isna(), 'Inactive', 'Active')] *)
Definition status_of (total_runs : option Z) : string :=
  match total_runs with
  | None => "Inactive"
  | Some _ => "Active"
  end.

(** [.fillna(0).astype(int)] *)
Definition fillna0 (v : option Z) : Z :=
  match v with
  | None => 0%Z
  | Some n => n
  end.

(** The classification, the defaulted count and the [index] column of
    [reset_index()] for the row at position [i]. *)
Definition final_row (i : nat) (m : Merged.t) : Final.t :=
  let a := Merged.left m in
  Final.mk (Z.of_nat i) (Mst.Zone a) (Mst.Lab_name_Masterlist a) (Mst.State a)
           (Mst.Account_Owner a) (Mst.Customer_Type a) (Mst.Truelab_id a)
           (Merged.Lab_name_Dashboard m) (Merged.Last_Run_Date m)
           (fillna0 (Merged.Total_Runs m)) (status_of (Merged.Total_Runs m)).

Fixpoint with_index (i : nat) (ms : list Merged.t) : list Final.t :=
  match ms with
  | [] => []
  | m :: t => final_row i m :: with_index (S i) t
  end.

(** The merge block. *)
Definition reconcile (mst : list Mst.t) (runs_summary : list Agg.t) : list Final.t :=
  with_index 0 (merge_left mst runs_summary).

(** The grouping key of the summary. *)
Definition key_of (r : Final.t) : key2 := (Final.State r, Final.Customer_Type r).

Definition has_status (s : string) (r : Final.t) : bool :=
  String.eqb (Final.Status r) s.

Definition has_key (k : key2) (r : Final.t) : bool := key2_eqb (key_of r) k.

(** [df.groupby(['State','Customer Type']).size().reset_index(name=...)]:
    one row per distinct key in ascending order with the number of rows of
    its group; rows with a missing State or Customer Type are dropped. *)
Definition groupby_size (df : list Final.t) : list (key2 * Z) :=
  map (fun k => (k, agg_size (filter (has_key k) df)))
      (sorted_unique key2_eqb key2_ltb (filter key2_notna (map key_of df))).

(** The count a table holds for key [k], if it has a row for it. *)
Definition lookup (k : key2) (tbl : list (key2 * Z)) : option Z :=
  option_map snd (find (fun e => key2_eqb (fst e) k) tbl).

(** [pd.merge(l, r, on=['State','Customer Type'], how='outer')] for two
    tables with distinct keys, as [groupby] gives them: one row per key of
    the union, ascending, a count missing where a side has no such key. *)
Definition merge_outer (l r : list (key2 * Z)) : list (key2 * option Z * option Z) :=
  map (fun k => (k, lookup k l, lookup k r))
      (sorted_unique key2_eqb key2_ltb (map fst l ++ map fst r)).

(** [.fillna(0)] and the [Total_Count] column. *)
Definition summary_row (e : key2 * option Z * option Z) : Summary.t :=
  let '(k, a, i) := e in
  let active_count := fillna0 a in
  let inactive_count := fillna0 i in
  Summary.mk (fst k) (snd k) active_count inactive_count
             (active_count + inactive_count)%Z.

(** The summary block. *)
Definition summarize (final : list Final.t) : list Summary.t :=
  let active_df := filter (has_status "Active") final in
  let inactive_df := filter (has_status "Inactive") final in
  let active_summary := groupby_size active_df in
  let inactive_summary := groupby_size inactive_df in
  map summary_row (merge_outer active_summary inactive_summary).

(** The keys of the summary, in order. *)
Definition summary_keys (final : list Final.t) : list key2 :=
  sorted_unique key2_eqb key2_ltb
    (map fst (groupby_size (filter (has_status "Active") final))
     ++ map fst (groupby_size (filter (has_status "Inactive") final))).

(** The row of [runs_summary] for the group of [k]. *)
Definition aggregate (F : Type) (df_r : list (run F)) (k : cell) : Agg.t :=
  Agg.mk k
    (agg_count (map Run.Patient_id (group F df_r k)))
    (agg_max (map Run.Test_date_time (group F df_r k)))
    (agg_last (map Run.Lab_name (group F df_r k))).

(** The joined row of an account whose device has the cleaned runs [g]. *)
Definition joined_group (F : Type) (a : Mst.t) (g : list (run F)) : Merged.t :=
  match g with
  | [] => Merged.mk a None None NaN
  | _ =>
      Merged.mk a (Some (agg_count (map Run.Patient_id g)))
                (agg_max (map Run.Test_date_time g))
                (agg_last (map Run.Lab_name g))
  end.

(** The sum of a column of integers. *)
Definition sumZ (col : list Z) : Z := fold_right Z.add 0%Z col.

(** The larger of two timestamps, a missing one giving way to the other:
    the step of ['max']. *)
Definition omax (a b : option Z) : option Z :=
  match a, b with
  | None, _ => b
  | Some _, None => a
  | Some x, Some y => Some (Z.max x y)
  end.

Section Processing.
Variable F : Type.
Variable parse_datetime : cell -> option Z.
Variable parse_numeric : cell -> option F.

(** From the cleaned tables to the two sheets. *)
Definition report (df_r : list (run F)) (mst : list Mst.t)
  : list Final.t * list Summary.t :=
  let final := reconcile mst (runs_summary F df_r) in
  (final, summarize final).

(** The body of [if run_button:], on the parsed uploads. *)
Definition process (csv_files : list (list Run.raw))
    (master_file : option (list Master.t))
  : result (list Final.t * list Summary.t) :=
  if negb (length csv_files =? 2)%nat then
    raise (Stop "Please upload exactly 2 CSV files.")
  else
    match master_file with
    | None => raise (Stop "Please upload the Master Excel file.")
    | Some master =>
        df_r <- clean F parse_datetime parse_numeric (pd_concat csv_files) ;;
        ret (report df_r (clean_master master))
    end.
End Processing.

(** ** Sample data *)

Module Sample.
(** A stand-in scalar parser: integers parse to themselves, text does not
    parse. *)
Definition parse (c : cell) : option Z :=
  match c with
  | Int z => Some z
  | _ => None
  end.

(** A run-log row with the given date, patient, lab, user and serial, the
    other columns empty. *)
Definition run_row (date patient lab user serial : cell) : Run.raw :=
  Run.mk date NaN patient NaN NaN lab user NaN serial NaN NaN
         NaN NaN NaN NaN NaN NaN NaN NaN NaN.

(** A master row with the given state, type and serial. *)
Definition master_row (state type serial : cell) : Master.t :=
  Master.mk (Str "West") (Str "Acme") state (Str "Owner") type serial.


(** One run without a patient identifier. *)
Definition csv_no_patient : list Run.raw :=
  [run_row (Int 1) NaN (Str "Lab") (Str "admin") (Str "TL1-01")].

(** Two runs of one device, the second without a lab name. *)
Definition csv_lab_then_blank : list Run.raw :=
  [run_row (Int 1) (Str "P1") (Str "Lab a") (Str "admin") (Str "TL1");
   run_row (Int 2) (Str "P2") NaN (Str "admin") (Str "TL1")].

(** A run and an account whose serials both start with a hyphen. *)
Definition csv_hyphen : list Run.raw :=
  [run_row (Int 1) (Str "P1") (Str "Lab") (Str "admin") (Str "-B")].
Definition master_hyphen : list Master.t :=
  [master_row (Str "TX") (Str "Clinic") (Str "-A")].

(** An account without a billing state. *)
Definition master_no_state : list Master.t :=
  [master_row NaN (Str "Clinic") (Str "TL9")].

(** Two accounts of one state and type, the first with a run. *)
Definition csv_one : list Run.raw :=
  [run_row (Int 1) (Str "P1") (Str "Lab") (Str "admin") (Str "TL-001")].
Definition master_two : list Master.t :=
  [master_row (Str "TX") (Str "Clinic") (Str "tl-001-A");
   master_row (Str "TX") (Str "Clinic") (Str "tl999")].

(** The cleaned accounts of [master_two], the aggregate of [csv_one] and
    the two report rows they give. *)
Definition mst_two : list Mst.t := clean_master master_two.
Definition aggs_one : list Agg.t := [Agg.mk (Str "TL") 1 (Some 1%Z) (Str "LAB")].
Definition row_active : Final.t :=
  Final.mk 0 (Str "West") (Str "ACME") (Str "TX") (Str "Owner")
           (Str "Clinic") (Str "TL") (Str "LAB") (Some 1%Z) 1 "Active".
Definition row_inactive : Final.t :=
  Final.mk 1 (Str "West") (Str "ACME") (Str "TX") (Str "Owner")
           (Str "Clinic") (Str "TL999") NaN None 0 "Inactive".

Definition clean := clean Z parse parse.
Definition runs_summary := runs_summary Z.
Definition process := process Z parse parse.

(** The cleaned tables of [csv_no_patient] and [csv_lab_then_blank] and
    their aggregates. *)
Definition df_no_patient : list (run Z) := map (cleaned Z parse parse) csv_no_patient.
Definition agg_no_patient : Agg.t := Agg.mk (Str "TL1") 0 (Some 1%Z) (Str "LAB").
Definition df_lab_then_blank : list (run Z) :=
  map (cleaned Z parse parse) csv_lab_then_blank.
Definition agg_lab : Agg.t := Agg.mk (Str "TL1") 2 (Some 2%Z) (Str "LAB A").

(** The cleaned table of [csv_one]. *)
Definition df_one : list (run Z) := map (cleaned Z parse parse) csv_one.

(** The summary row of [row_active] and [row_inactive]. *)
Definition summary_tx : Summary.t := Summary.mk (Str "TX") (Str "Clinic") 1 1 2.
End Sample.

(** * Properties *)

(** ** Strings *)

Module PyStrFacts.
Import PyStr.















End PyStrFacts.

(** ** Device identifiers *)

Lemma derive_id_text (s : string) : derive_id (Str s) = Str (derive_text s).
Proof. reflexivity. Qed.





(** ** Cells and keys *)

Lemma cell_eqb_eq (a b : cell) : cell_eqb a b = true <-> a = b.
Proof.
  destruct a, b; simpl; try (split; (discriminate || reflexivity)).
  - rewrite String.eqb_eq. split; congruence.
  - rewrite Z.eqb_eq. split; congruence.
Qed.

Lemma cell_eqb_refl (a : cell) : cell_eqb a a = true.
Proof. now apply cell_eqb_eq. Qed.


Lemma key2_eqb_eq (a b : key2) : key2_eqb a b = true <-> a = b.
Proof.
  destruct a as [a1 a2], b as [b1 b2]. unfold key2_eqb. simpl.
  rewrite andb_true_iff, !cell_eqb_eq. split; [intros []|intros [=]]; now subst.
Qed.

Section SortedKeysFacts.
Context {K : Type} (eqb ltb : K -> K -> bool).
Hypothesis eqb_eq : forall a b, eqb a b = true <-> a = b.

Lemma existsb_eqb (k : K) (ks : list K) :
  existsb (eqb k) ks = true <-> In k ks.
Proof.
  rewrite existsb_exists. split.
  - intros (x & Hx & E). apply eqb_eq in E. now subst.
  - intros H. exists k. split; [exact H|now apply eqb_eq].
Qed.

Lemma in_insert_sorted (x k : K) (ks : list K) :
  In x (insert_sorted ltb k ks) <-> x = k \/ In x ks.
Proof.
  induction ks as [|h t IH]; simpl.
  - intuition.
  - destruct (ltb k h); simpl; [intuition|]. rewrite IH. intuition.
Qed.

Lemma NoDup_insert_sorted (k : K) (ks : list K) :
  ~ In k ks -> NoDup ks -> NoDup (insert_sorted ltb k ks).
Proof.
  induction ks as [|h t IH]; simpl; intros Hk Hnd.
  - constructor; [easy|constructor].
  - destruct (ltb k h).
    + constructor; [exact Hk|exact Hnd].
    + inversion Hnd as [|? ? Hh Ht]; subst.
      constructor.
      * rewrite in_insert_sorted. intros [E|H]; [|contradiction].
        apply Hk. now left.
      * apply IH; [|exact Ht]. intros H. apply Hk. now right.
Qed.

Lemma in_add_key (x k : K) (ks : list K) :
  In x (add_key eqb ltb k ks) <-> x = k \/ In x ks.
Proof.
  unfold add_key. destruct (existsb (eqb k) ks) eqn:E.
  - apply existsb_eqb in E. split; [now right|]. intros [->|H]; assumption.
  - apply in_insert_sorted.
Qed.

Lemma NoDup_add_key (k : K) (ks : list K) :
  NoDup ks -> NoDup (add_key eqb ltb k ks).
Proof.
  intros Hnd. unfold add_key. destruct (existsb (eqb k) ks) eqn:E; [exact Hnd|].
  apply NoDup_insert_sorted; [|exact Hnd].
  rewrite <- existsb_eqb, E. discriminate.
Qed.

(** The sorted keys are the keys of the column. *)
Lemma in_sorted_unique (x : K) (ks : list K) :
  In x (sorted_unique eqb ltb ks) <-> In x ks.
Proof.
  induction ks as [|k t IH]; simpl; [reflexivity|].
  rewrite in_add_key, IH. intuition.
Qed.

(** Each key occurs once. *)
Lemma NoDup_sorted_unique (ks : list K) : NoDup (sorted_unique eqb ltb ks).
Proof.
  induction ks as [|k t IH]; simpl; [constructor|].
  now apply NoDup_add_key.
Qed.
End SortedKeysFacts.

(** ** Cleaning *)


(** Under [errors='raise'] the same converter does raise. *)
Lemma convert_raise {A} (parse : cell -> option A) (arg : cell) :
  arg <> NaN -> parse arg = None ->
  convert parse errors_raise arg = raise ValueError.
Proof. intros Hna Hp. destruct arg; [easy| |]; simpl; now rewrite Hp. Qed.


Section CleaningFacts.
Variable F : Type.
Variable parse_datetime : cell -> option Z.
Variable parse_numeric : cell -> option F.



End CleaningFacts.




(** A date that does not parse is cleaned to a missing value; the same
    value under [errors='raise'] stops with a [ValueError]. *)
Example clean_bad_date :
  (exists c,
     Sample.clean [Sample.run_row (Str "31/31/2024") (Str "P1") (Str "Lab")
                     (Str "admin") (Str "TL1")] = inr [c] /\
     Run.Test_date_time c = None) /\
  to_datetime Sample.parse errors_raise (Str "31/31/2024") = inl ValueError.
Proof. split; [eexists; split; reflexivity|reflexivity]. Qed.



(** The filter compares the whole text, case included. *)
Example service_filter_cases :
  map not_service
      [Sample.run_row NaN NaN NaN (Str "Service") NaN;
       Sample.run_row NaN NaN NaN (Str "service") NaN;
       Sample.run_row NaN NaN NaN (Str "SERVICE") NaN;
       Sample.run_row NaN NaN NaN (Str "Service ") NaN;
       Sample.run_row NaN NaN NaN NaN NaN]
  = [false; true; true; true; true].
Proof. reflexivity. Qed.


(** ** Aggregation *)

Lemma agg_last_snoc (col : list cell) (v : cell) :
  agg_last (col ++ [v]) = if isna v then agg_last col else v.
Proof. unfold agg_last. now rewrite fold_left_app. Qed.

(** ['last'] is the last value that is not missing. *)
Lemma agg_last_spec (col : list cell) :
  (Forall (fun v => v = NaN) col /\ agg_last col = NaN) \/
  (exists before v after,
      col = before ++ v :: after /\ v <> NaN /\
      Forall (fun x => x = NaN) after /\ agg_last col = v).
Proof.
  induction col as [|v col IH] using rev_ind.
  - left. split; [constructor|reflexivity].
  - rewrite agg_last_snoc. destruct v as [|s|z]; simpl.
    + destruct IH as [[Hall E] | (before & w & after & E & Hw & Hafter & El)].
      * left. split; [|exact E].
        apply Forall_app. split; [exact Hall|now constructor].
      * right. exists before, w, (after ++ [NaN]). subst col.
        split; [now rewrite <- app_assoc|].
        split; [exact Hw|]. split; [|exact El].
        apply Forall_app. split; [exact Hafter|now constructor].
    + right. exists col, (Str s), []. repeat split; [discriminate|constructor].
    + right. exists col, (Int z), []. repeat split; [discriminate|constructor].
Qed.

Lemma agg_last_last (col : list cell) (d : cell) :
  col <> [] -> last col d <> NaN -> agg_last col = last col d.
Proof.
  intros Hne Hlast.
  destruct (exists_last Hne) as (l & a & ->).
  rewrite last_last in *. rewrite agg_last_snoc.
  destruct a; [contradiction| |]; reflexivity.
Qed.

Lemma agg_count_map {A} (f : A -> cell) (rows : list A) :
  agg_count (map f rows) = agg_size (filter (fun r => notna (f r)) rows).
Proof.
  unfold agg_count, agg_size. now rewrite filter_map_swap, length_map.
Qed.

Section AggregationFacts.
Variable F : Type.

Lemma in_group_keys (df_r : list (run F)) (k : cell) :
  In k (group_keys F df_r) <->
  k <> NaN /\ exists r, In r df_r /\ Run.Truelab_id r = k.
Proof.
  unfold group_keys.
  rewrite (in_sorted_unique cell_eqb cell_ltb cell_eqb_eq).
  rewrite filter_In, in_map_iff. unfold notna. split.
  - intros [(r & E & Hr) Hk]. split; [now destruct k|]. now exists r.
  - intros [Hk (r & Hr & E)]. split; [now exists r|]. now destruct k.
Qed.

Lemma runs_summary_keys (df_r : list (run F)) :
  map Agg.Truelab_id (runs_summary F df_r) = group_keys F df_r.
Proof.
  unfold runs_summary. rewrite map_map. simpl. apply map_id.
Qed.

(** [runs_summary] has one row per device identifier. *)
Lemma runs_summary_NoDup (df_r : list (run F)) :
  NoDup (map Agg.Truelab_id (runs_summary F df_r)).
Proof.
  rewrite runs_summary_keys.
  apply (NoDup_sorted_unique cell_eqb cell_ltb cell_eqb_eq).
Qed.

Lemma in_runs_summary (df_r : list (run F)) (g : Agg.t) :
  In g (runs_summary F df_r) ->
  In (Agg.Truelab_id g) (group_keys F df_r) /\
  Agg.Total_Runs g = agg_count (map Run.Patient_id (group F df_r (Agg.Truelab_id g))) /\
  Agg.Last_Run_Date g = agg_max (map Run.Test_date_time (group F df_r (Agg.Truelab_id g))) /\
  Agg.Lab_name_Dashboard g = agg_last (map Run.Lab_name (group F df_r (Agg.Truelab_id g))).
Proof.
  unfold runs_summary. rewrite in_map_iff. intros (k & <- & Hk). simpl. auto.
Qed.
End AggregationFacts.

(** C2 (as stated) fails: a run without a patient identifier is a row of
    its device's group and yet is not counted, so the total run count is
    not the row count of the group. *)
Lemma total_runs_is_not_group_size :
  exists df_r,
    Sample.clean Sample.csv_no_patient = inr df_r /\
    Sample.runs_summary df_r = [Sample.agg_no_patient] /\
    ~ (forall g, In g (Sample.runs_summary df_r) ->
                 Agg.Total_Runs g = agg_size (group Z df_r (Agg.Truelab_id g))).
Proof.
  eexists. split; [reflexivity|]. split; [reflexivity|].
  intros H. specialize (H Sample.agg_no_patient).
  discriminate H. now left.
Qed.

(** C2 (amended).  For every row of [runs_summary], the total run count is
    the number of cleaned rows of its device identifier whose [Patient_id]
    is not missing; it is the row count of the group when no [Patient_id]
    in the group is missing. *)
Theorem total_runs_counts_patient_ids
    (F : Type) (df_r : list (run F)) (g : Agg.t)
    (Hg : In g (runs_summary F df_r)) :
  Agg.Total_Runs g
  = agg_size (filter (fun r => notna (Run.Patient_id r))
                     (group F df_r (Agg.Truelab_id g))) /\
  (Forall (fun r => Run.Patient_id r <> NaN) (group F df_r (Agg.Truelab_id g)) ->
   Agg.Total_Runs g = agg_size (group F df_r (Agg.Truelab_id g))).
Proof.
  destruct (in_runs_summary F df_r g Hg) as (_ & Ht & _).
  rewrite Ht, agg_count_map. split; [reflexivity|].
  intros Hall. f_equal. apply forallb_filter_id.
  apply forallb_forall. rewrite Forall_forall in Hall.
  intros r Hr. specialize (Hall r Hr). now destruct (Run.Patient_id r).
Qed.

Lemma total_runs_counts_patient_ids_witness :
  Agg.Total_Runs Sample.agg_no_patient
  = agg_size (filter (fun r => notna (Run.Patient_id r))
                     (group Z Sample.df_no_patient (Str "TL1"))) /\
  (Forall (fun r => Run.Patient_id r <> NaN)
          (group Z Sample.df_no_patient (Str "TL1")) ->
   Agg.Total_Runs Sample.agg_no_patient
   = agg_size (group Z Sample.df_no_patient (Str "TL1"))).
Proof.
  apply (total_runs_counts_patient_ids Z Sample.df_no_patient Sample.agg_no_patient).
  simpl. left. reflexivity.
Defined.

(** C5 (as stated) fails: when the last row of a group has no lab name the
    aggregate carries the lab name of an earlier row, not the missing value
    of the last row. *)
Lemma lab_name_is_not_of_last_row :
  exists df_r,
    Sample.clean Sample.csv_lab_then_blank = inr df_r /\
    map Run.Lab_name (group Z df_r (Str "TL1")) = [Str "LAB A"; NaN] /\
    Sample.runs_summary df_r = [Sample.agg_lab] /\
    ~ (forall g, In g (Sample.runs_summary df_r) ->
                 Agg.Lab_name_Dashboard g
                 = last (map Run.Lab_name (group Z df_r (Agg.Truelab_id g))) NaN).
Proof.
  eexists. split; [reflexivity|]. split; [reflexivity|]. split; [reflexivity|].
  intros H. specialize (H Sample.agg_lab).
  discriminate H. now left.
Qed.

(** C5 (amended).  For every row of [runs_summary], the last-observed lab
    name is the last [Lab_name] that is not missing among the rows of its
    device identifier, taken in input row order without sorting, and it is
    missing only when every [Lab_name] of the group is; whenever the
    group's last row has a lab name, it is that one. *)
Theorem lab_name_is_last_present
    (F : Type) (df_r : list (run F)) (g : Agg.t)
    (Hg : In g (runs_summary F df_r)) :
  let labs := map Run.Lab_name (group F df_r (Agg.Truelab_id g)) in
  ((Forall (fun v => v = NaN) labs /\ Agg.Lab_name_Dashboard g = NaN) \/
   (exists before v after,
       labs = before ++ v :: after /\ v <> NaN /\
       Forall (fun x => x = NaN) after /\ Agg.Lab_name_Dashboard g = v)) /\
  (last labs NaN <> NaN -> Agg.Lab_name_Dashboard g = last labs NaN).
Proof.
  intros labs.
  destruct (in_runs_summary F df_r g Hg) as (_ & _ & _ & Hl).
  fold labs in Hl. rewrite Hl. split; [apply agg_last_spec|].
  intros Hlast. apply agg_last_last; [|exact Hlast].
  intros E. rewrite E in Hlast. now apply Hlast.
Qed.

Lemma lab_name_is_last_present_witness :
  let labs := map Run.Lab_name (group Z Sample.df_lab_then_blank (Str "TL1")) in
  ((Forall (fun v => v = NaN) labs /\ Agg.Lab_name_Dashboard Sample.agg_lab = NaN) \/
   (exists before v after,
       labs = before ++ v :: after /\ v <> NaN /\
       Forall (fun x => x = NaN) after /\ Agg.Lab_name_Dashboard Sample.agg_lab = v)) /\
  (last labs NaN <> NaN -> Agg.Lab_name_Dashboard Sample.agg_lab = last labs NaN).
Proof.
  apply (lab_name_is_last_present Z Sample.df_lab_then_blank Sample.agg_lab).
  simpl. left. reflexivity.
Defined.

(** ** Reconciliation *)

Lemma in_matches (a : Mst.t) (rs : list Agg.t) (g : Agg.t) :
  In g (matches a rs) <-> In g rs /\ Agg.Truelab_id g = Mst.Truelab_id a.
Proof. unfold matches. now rewrite filter_In, cell_eqb_eq. Qed.

Lemma matches_nil (a : Mst.t) (rs : list Agg.t) :
  matches a rs = [] <->
  forall g, In g rs -> Agg.Truelab_id g <> Mst.Truelab_id a.
Proof.
  split.
  - intros E g Hg Hk.
    assert (H : In g (matches a rs)) by now apply in_matches.
    now rewrite E in H.
  - intros H. destruct (matches a rs) as [|g t] eqn:E; [reflexivity|].
    assert (Hg : In g (matches a rs)) by (rewrite E; now left).
    apply in_matches in Hg as [Hg Hk]. now destruct (H g Hg).
Qed.

(** With distinct keys on the right at most one row matches. *)
Lemma matches_unique (a : Mst.t) (rs : list Agg.t) :
  NoDup (map Agg.Truelab_id rs) -> (length (matches a rs) <= 1)%nat.
Proof.
  unfold matches. induction rs as [|g t IH]; simpl; intros Hnd; [lia|].
  inversion Hnd as [|? ? Hg Ht]; subst.
  destruct (cell_eqb (Agg.Truelab_id g) (Mst.Truelab_id a)) eqn:E.
  - apply cell_eqb_eq in E. simpl.
    replace (filter _ t) with (@nil Agg.t); [simpl; lia|].
    symmetry. apply (matches_nil a t). intros g' Hg' Hk.
    apply Hg. rewrite E, <- Hk. now apply in_map.
  - now apply IH.
Qed.

Lemma merge_left_joined (mst : list Mst.t) (rs : list Agg.t) :
  merge_left mst rs = flat_map (fun a => joined a rs) mst.
Proof. reflexivity. Qed.

Lemma in_joined (a : Mst.t) (rs : list Agg.t) (m : Merged.t) :
  In m (joined a rs) ->
  Merged.left m = a /\
  ((matches a rs = [] /\ Merged.Total_Runs m = None /\
    Merged.Last_Run_Date m = None /\ Merged.Lab_name_Dashboard m = NaN) \/
   (exists g, In g (matches a rs) /\
              Merged.Total_Runs m = Some (Agg.Total_Runs g) /\
              Merged.Last_Run_Date m = Agg.Last_Run_Date g /\
              Merged.Lab_name_Dashboard m = Agg.Lab_name_Dashboard g)).
Proof.
  unfold joined. destruct (matches a rs) as [|g t] eqn:E.
  - intros [<-|[]]. simpl. split; [reflexivity|]. left. auto.
  - set (gs := g :: t). rewrite in_map_iff. intros (g' & <- & Hg'). simpl.
    split; [reflexivity|]. right. exists g'. auto.
Qed.

Lemma in_merge_left (mst : list Mst.t) (rs : list Agg.t) (m : Merged.t) :
  In m (merge_left mst rs) <-> exists a, In a mst /\ In m (joined a rs).
Proof. rewrite merge_left_joined. apply in_flat_map. Qed.

Lemma joined_single (a : Mst.t) (rs : list Agg.t) :
  NoDup (map Agg.Truelab_id rs) -> map Merged.left (joined a rs) = [a].
Proof.
  intros Hnd. pose proof (matches_unique a rs Hnd) as Hlen.
  unfold joined. destruct (matches a rs) as [|g [|g' t]]; simpl in *;
    [reflexivity|reflexivity|lia].
Qed.

(** The left join keeps the left table when the right keys are distinct. *)
Lemma merge_left_keeps_left (mst : list Mst.t) (rs : list Agg.t) :
  NoDup (map Agg.Truelab_id rs) -> map Merged.left (merge_left mst rs) = mst.
Proof.
  intros Hnd. rewrite merge_left_joined.
  induction mst as [|a t IH]; simpl; [reflexivity|].
  rewrite map_app, (joined_single a rs Hnd), IH. reflexivity.
Qed.

Lemma final_row_account (i : nat) (m : Merged.t) :
  Final.account (final_row i m) = Merged.left m.
Proof. unfold Final.account, final_row. simpl. now destruct (Merged.left m). Qed.

Lemma with_index_accounts (i : nat) (ms : list Merged.t) :
  map Final.account (with_index i ms) = map Merged.left ms.
Proof.
  revert i. induction ms as [|m t IH]; intros i; simpl; [reflexivity|].
  now rewrite final_row_account, IH.
Qed.

Lemma in_with_index (i : nat) (ms : list Merged.t) (row : Final.t) :
  In row (with_index i ms) -> exists j m, In m ms /\ row = final_row j m.
Proof.
  revert i. induction ms as [|m t IH]; intros i; simpl; [easy|].
  intros [<-|H].
  - exists i, m. auto.
  - destruct (IH _ H) as (j & m' & Hm' & E). exists j, m'. auto.
Qed.

(** Every report row is the classification of a joined row of an account. *)
Lemma in_reconcile (mst : list Mst.t) (rs : list Agg.t) (row : Final.t) :
  In row (reconcile mst rs) ->
  exists j m, In m (merge_left mst rs) /\ row = final_row j m /\
              In (Merged.left m) mst /\ In m (joined (Merged.left m) rs).
Proof.
  intros H. destruct (in_with_index _ _ _ H) as (j & m & Hm & E).
  exists j, m. split; [exact Hm|]. split; [exact E|].
  apply in_merge_left in Hm as (a & Ha & Hj).
  destruct (in_joined a rs m Hj) as [El _]. now rewrite El.
Qed.

(** The two ways a report row comes about. *)
Lemma reconcile_cases (mst : list Mst.t) (rs : list Agg.t) (row : Final.t) :
  In row (reconcile mst rs) ->
  exists j m,
    In m (merge_left mst rs) /\ row = final_row j m /\
    ((Merged.Total_Runs m = None /\
      Merged.Last_Run_Date m = None /\ Merged.Lab_name_Dashboard m = NaN /\
      forall g, In g rs -> Agg.Truelab_id g <> Final.Truelab_id row) \/
     (exists g, In g rs /\ Agg.Truelab_id g = Final.Truelab_id row /\
                Merged.Total_Runs m = Some (Agg.Total_Runs g) /\
                Merged.Last_Run_Date m = Agg.Last_Run_Date g /\
                Merged.Lab_name_Dashboard m = Agg.Lab_name_Dashboard g)).
Proof.
  intros H. destruct (in_reconcile mst rs row H) as (j & m & Hm & E & _ & Hj).
  exists j, m. split; [exact Hm|]. split; [exact E|].
  assert (Ek : Final.Truelab_id row = Mst.Truelab_id (Merged.left m))
    by now subst row.
  rewrite Ek.
  destruct (in_joined _ rs m Hj) as [_ [(Hnil & Ht & Hd & Hl) | (g & Hg & Ht & Hd & Hl)]].
  - left. repeat split; try assumption. now apply matches_nil.
  - right. exists g. apply in_matches in Hg as [Hg Hk]. auto.
Qed.

(** C1.  Every row of the reconciled table comes from a row of the left
    join; its Status is [Inactive] exactly when the joined total run count
    is missing, which is exactly when no row of [runs_summary] carries the
    account's device identifier, and is [Active] otherwise; its total run
    count is the joined one with a missing count replaced by the integer 0. *)
Theorem status_inactive_iff_unmatched
    (mst : list Mst.t) (rs : list Agg.t) (row : Final.t)
    (Hrow : In row (reconcile mst rs)) :
  exists j m,
    In m (merge_left mst rs) /\ row = final_row j m /\
    (Final.Status row = "Inactive" <-> Merged.Total_Runs m = None) /\
    (Merged.Total_Runs m = None <->
     forall g, In g rs -> Agg.Truelab_id g <> Final.Truelab_id row) /\
    (Final.Status row <> "Inactive" -> Final.Status row = "Active") /\
    Final.Total_Runs row = match Merged.Total_Runs m with
                           | None => 0%Z
                           | Some n => n
                           end.
Proof.
  destruct (reconcile_cases mst rs row Hrow) as (j & m & Hm & E & Hcase).
  exists j, m. split; [exact Hm|]. split; [exact E|].
  assert (Es : Final.Status row = status_of (Merged.Total_Runs m)) by now subst row.
  assert (Et : Final.Total_Runs row = fillna0 (Merged.Total_Runs m)) by now subst row.
  rewrite Es, Et.
  destruct Hcase as [(Hn & _ & _ & Hno) | (g & Hg & Hk & Hs & _)].
  - rewrite Hn. simpl. repeat split; auto. intros H. now destruct H.
  - rewrite Hs. simpl. repeat split; try discriminate.
    intros Hno. now destruct (Hno g Hg).
Qed.

Lemma status_inactive_iff_unmatched_witness :
  exists j m,
    In m (merge_left Sample.mst_two Sample.aggs_one) /\
    Sample.row_inactive = final_row j m /\
    (Final.Status Sample.row_inactive = "Inactive" <-> Merged.Total_Runs m = None) /\
    (Merged.Total_Runs m = None <->
     forall g, In g Sample.aggs_one ->
               Agg.Truelab_id g <> Final.Truelab_id Sample.row_inactive) /\
    (Final.Status Sample.row_inactive <> "Inactive" ->
     Final.Status Sample.row_inactive = "Active") /\
    Final.Total_Runs Sample.row_inactive = match Merged.Total_Runs m with
                                           | None => 0%Z
                                           | Some n => n
                                           end.
Proof.
  apply (status_inactive_iff_unmatched Sample.mst_two Sample.aggs_one
           Sample.row_inactive).
  simpl. right. left. reflexivity.
Defined.

Lemma reconcile_accounts (mst : list Mst.t) (rs : list Agg.t) :
  NoDup (map Agg.Truelab_id rs) ->
  map Final.account (reconcile mst rs) = mst.
Proof.
  intros Hnd. unfold reconcile. rewrite with_index_accounts.
  now apply merge_left_keeps_left.
Qed.

(** C3.  When the device identifiers of the aggregate table are distinct,
    the reconciled table has as many rows as the account table and lists
    the accounts once each, in order, matched or not; a row whose account
    matches no aggregate has a missing last-run date and a missing
    dashboard lab name. *)
Theorem left_join_preserves_accounts
    (mst : list Mst.t) (rs : list Agg.t)
    (Hkeys : NoDup (map Agg.Truelab_id rs)) :
  length (reconcile mst rs) = length mst /\
  map Final.account (reconcile mst rs) = mst /\
  (forall row,
      In row (reconcile mst rs) ->
      (forall g, In g rs -> Agg.Truelab_id g <> Final.Truelab_id row) ->
      Final.Last_Run_Date row = None /\ Final.Lab_name_Dashboard row = NaN).
Proof.
  assert (Hacc : map Final.account (reconcile mst rs) = mst)
    by now apply reconcile_accounts.
  split; [|split; [exact Hacc|]].
  - rewrite <- Hacc at 2. now rewrite length_map.
  - intros row Hrow Hno.
    destruct (reconcile_cases mst rs row Hrow)
      as (j & m & _ & E & [(_ & Hd & Hl & _) | (g & Hg & Hk & _)]).
    + subst row. simpl. auto.
    + now destruct (Hno g Hg).
Qed.

Lemma left_join_preserves_accounts_witness :
  length (reconcile Sample.mst_two Sample.aggs_one) = length Sample.mst_two /\
  map Final.account (reconcile Sample.mst_two Sample.aggs_one) = Sample.mst_two /\
  (forall row,
      In row (reconcile Sample.mst_two Sample.aggs_one) ->
      (forall g, In g Sample.aggs_one -> Agg.Truelab_id g <> Final.Truelab_id row) ->
      Final.Last_Run_Date row = None /\ Final.Lab_name_Dashboard row = NaN).
Proof.
  apply (left_join_preserves_accounts Sample.mst_two Sample.aggs_one).
  simpl. constructor; [intros []|constructor].
Defined.

(** The spec's two-account scenario, end to end. *)
Example process_two_accounts :
  Sample.process [Sample.csv_one; []] (Some Sample.master_two)
  = inr ([Sample.row_active; Sample.row_inactive],
         [Summary.mk (Str "TX") (Str "Clinic") 1 1 2]).
Proof. reflexivity. Qed.

Section PipelineFacts.
Variable F : Type.

(** With the aggregates of the run log on the right, a row is inactive
    exactly when no cleaned run carries its device identifier. *)
Lemma status_by_runs (df_r : list (run F)) (mst : list Mst.t) (row : Final.t) :
  In row (reconcile mst (runs_summary F df_r)) ->
  Final.Truelab_id row <> NaN ->
  (Final.Status row = "Inactive" <->
   forall r, In r df_r -> Run.Truelab_id r <> Final.Truelab_id row) /\
  (Final.Status row = "Active" <->
   exists r, In r df_r /\ Run.Truelab_id r = Final.Truelab_id row).
Proof.
  intros Hrow Hk.
  destruct (reconcile_cases _ _ row Hrow)
    as (j & m & _ & E & [(Hn & _ & _ & Hno) | (g & Hg & Hgk & Hs & _)]).
  - assert (Es : Final.Status row = "Inactive") by (subst row; simpl; now rewrite Hn).
    assert (Hnone : forall r, In r df_r -> Run.Truelab_id r <> Final.Truelab_id row).
    { intros r Hr Er.
      assert (Hin : In (Final.Truelab_id row) (group_keys F df_r)).
      { apply in_group_keys. split; [exact Hk|]. now exists r. }
      rewrite <- runs_summary_keys in Hin.
      apply in_map_iff in Hin as (g & Eg & Hg). now destruct (Hno g Hg). }
    rewrite Es. split; split; try discriminate; auto.
    intros (r & Hr & Er). now destruct (Hnone r Hr).
  - assert (Es : Final.Status row = "Active") by (subst row; simpl; now rewrite Hs).
    assert (Hsome : exists r, In r df_r /\ Run.Truelab_id r = Final.Truelab_id row).
    { destruct (in_runs_summary F df_r g Hg) as (Hin & _).
      apply in_group_keys in Hin as (_ & r & Hr & Er).
      exists r. split; [exact Hr|congruence]. }
    rewrite Es. split; split; try discriminate; auto.
    intros Hnone. destruct Hsome as (r & Hr & Er). now destruct (Hnone r Hr).
Qed.
End PipelineFacts.


(** C6 (as stated) fails: an account whose derived identifier is empty
    joins to the aggregate of the runs whose derived identifier is empty
    too, and is then classified Active. *)
Lemma empty_key_account_can_match :
  exists final summary row,
    Sample.process [Sample.csv_hyphen; []] (Some Sample.master_hyphen)
    = inr (final, summary) /\
    final = [row] /\
    Final.Truelab_id row = Str "" /\
    Final.Status row = "Active" /\
    Final.Status row <> "Inactive".
Proof.
  eexists _, _, _. split; [reflexivity|].
  split; [reflexivity|]. split; [reflexivity|]. split; [reflexivity|discriminate].
Qed.

(** C6 (amended).  On the aggregates of any cleaned run log, the reconciled
    table lists every account once, in order; an account whose derived
    identifier is empty is Inactive exactly when no cleaned run has an
    empty derived identifier, and Active exactly when one has. *)
Theorem empty_key_account_once
    (F : Type) (df_r : list (run F)) (mst : list Mst.t) :
  map Final.account (reconcile mst (runs_summary F df_r)) = mst /\
  (forall row,
      In row (reconcile mst (runs_summary F df_r)) ->
      Final.Truelab_id row = Str "" ->
      (Final.Status row = "Inactive" <->
       forall r, In r df_r -> Run.Truelab_id r <> Str "") /\
      (Final.Status row = "Active" <->
       exists r, In r df_r /\ Run.Truelab_id r = Str "")).
Proof.
  split.
  - apply reconcile_accounts, runs_summary_NoDup.
  - intros row Hrow Ek.
    rewrite <- Ek. apply (status_by_runs F df_r mst row Hrow).
    rewrite Ek. discriminate.
Qed.

(** ** Summary *)

Lemma key2_eqb_refl (k : key2) : key2_eqb k k = true.
Proof. now apply key2_eqb_eq. Qed.

(** Looking a key up in a table computed from its key column. *)
Lemma lookup_map_in (f : key2 -> Z) (ks : list key2) (k : key2) :
  In k ks -> lookup k (map (fun k' => (k', f k')) ks) = Some (f k).
Proof.
  unfold lookup. induction ks as [|h t IH]; simpl; [easy|].
  intros Hin. destruct (key2_eqb h k) eqn:E.
  - apply key2_eqb_eq in E. now subst.
  - destruct Hin as [->|Hin]; [now rewrite key2_eqb_refl in E|]. now apply IH.
Qed.

Lemma lookup_map_notin (f : key2 -> Z) (ks : list key2) (k : key2) :
  ~ In k ks -> lookup k (map (fun k' => (k', f k')) ks) = None.
Proof.
  unfold lookup. induction ks as [|h t IH]; simpl; [easy|].
  intros Hin. destruct (key2_eqb h k) eqn:E.
  - apply key2_eqb_eq in E. destruct Hin. now left.
  - apply IH. intros H. apply Hin. now right.
Qed.

Lemma has_key_iff (k : key2) (r : Final.t) : has_key k r = true <-> key_of r = k.
Proof. apply key2_eqb_eq. Qed.

Lemma groupby_size_keys (df : list Final.t) :
  map fst (groupby_size df)
  = sorted_unique key2_eqb key2_ltb (filter key2_notna (map key_of df)).
Proof. unfold groupby_size. rewrite map_map. simpl. apply map_id. Qed.

Lemma in_groupby_size_keys (df : list Final.t) (k : key2) :
  In k (map fst (groupby_size df)) <->
  key2_notna k = true /\ exists r, In r df /\ key_of r = k.
Proof.
  rewrite groupby_size_keys, (in_sorted_unique key2_eqb key2_ltb key2_eqb_eq).
  rewrite filter_In, in_map_iff. split.
  - intros [(r & E & Hr) Hk]. split; [exact Hk|]. now exists r.
  - intros [Hk (r & Hr & E)]. split; [now exists r|exact Hk].
Qed.

(** The count a group-by table gives for a key without missing parts, 0
    when it has no row for it, is the number of rows with that key. *)
Lemma lookup_groupby_size (df : list Final.t) (k : key2) :
  key2_notna k = true ->
  fillna0 (lookup k (groupby_size df)) = agg_size (filter (has_key k) df).
Proof.
  intros Hk. unfold groupby_size.
  set (ks := sorted_unique key2_eqb key2_ltb (filter key2_notna (map key_of df))).
  destruct (existsb (key2_eqb k) ks) eqn:E.
  - apply (existsb_eqb key2_eqb key2_eqb_eq) in E.
    now rewrite (lookup_map_in (fun k' => agg_size (filter (has_key k') df)) ks k E).
  - assert (Hnot : ~ In k ks).
    { rewrite <- (existsb_eqb key2_eqb key2_eqb_eq), E. discriminate. }
    rewrite (lookup_map_notin (fun k' => agg_size (filter (has_key k') df)) ks k Hnot).
    simpl. replace (filter (has_key k) df) with (@nil Final.t); [reflexivity|].
    symmetry. destruct (filter (has_key k) df) as [|r t] eqn:Ef; [reflexivity|].
    assert (Hr : In r (filter (has_key k) df)) by (rewrite Ef; now left).
    apply filter_In in Hr as [Hr Hkr]. apply has_key_iff in Hkr.
    destruct Hnot. unfold ks.
    rewrite (in_sorted_unique key2_eqb key2_ltb key2_eqb_eq), filter_In.
    split; [|exact Hk]. rewrite <- Hkr. now apply in_map.
Qed.

Lemma summarize_keys (final : list Final.t) :
  map (fun sr => (Summary.State sr, Summary.Customer_Type sr)) (summarize final)
  = summary_keys final.
Proof.
  unfold summarize, merge_outer, summary_keys. rewrite !map_map. simpl.
  erewrite map_ext; [apply map_id|]. now intros [s t].
Qed.

Lemma in_summarize (final : list Final.t) (sr : Summary.t) :
  In sr (summarize final) <->
  exists k, In k (summary_keys final) /\
    sr = summary_row
           (k, lookup k (groupby_size (filter (has_status "Active") final)),
               lookup k (groupby_size (filter (has_status "Inactive") final))).
Proof.
  unfold summarize, merge_outer. rewrite map_map, in_map_iff.
  split; intros (k & H1 & H2); exists k; auto.
Qed.

(** Splitting a count by status. *)
Lemma count_by_status (p : Final.t -> bool) (final : list Final.t) :
  Forall (fun r => Final.Status r = "Active" \/ Final.Status r = "Inactive") final ->
  agg_size (filter p final)
  = (agg_size (filter p (filter (has_status "Active") final))
     + agg_size (filter p (filter (has_status "Inactive") final)))%Z.
Proof.
  unfold agg_size. induction 1 as [|r t Hr _ IH]; [reflexivity|].
  assert (Hs : (has_status "Active" r = true /\ has_status "Inactive" r = false) \/
               (has_status "Active" r = false /\ has_status "Inactive" r = true)).
  { unfold has_status. destruct Hr as [-> | ->]; auto. }
  cbn [filter].
  destruct Hs as [[-> ->] | [-> ->]]; cbn [filter]; destruct (p r);
    cbn [length]; lia.
Qed.

Lemma reconcile_status (mst : list Mst.t) (rs : list Agg.t) :
  Forall (fun r => Final.Status r = "Active" \/ Final.Status r = "Inactive")
         (reconcile mst rs).
Proof.
  apply Forall_forall. intros row Hrow.
  destruct (in_with_index _ _ _ Hrow) as (j & m & _ & ->). simpl.
  destruct (Merged.Total_Runs m); simpl; auto.
Qed.

(** C4 (as stated) fails: the pair of an account without a billing state
    appears among the report rows, and the summary has no row for it. *)
Lemma pair_with_missing_state_has_no_summary_row :
  exists final summary row,
    Sample.process [Sample.csv_one; []] (Some Sample.master_no_state)
    = inr (final, summary) /\
    In row final /\
    key_of row = (NaN, Str "Clinic") /\
    ~ (exists sr, In sr summary /\
                  Summary.State sr = Final.State row /\
                  Summary.Customer_Type sr = Final.Customer_Type row).
Proof.
  eexists _, _, _. split; [reflexivity|].
  split; [left; reflexivity|]. split; [reflexivity|].
  intros (sr & [] & _).
Qed.

(** C4 (amended).  For every State and Customer Type, neither of them
    missing, that a report row carries, the summary has a row for that
    pair, and only one; its Total_Count is the number of report rows with
    that pair whatever their Status, and is Active_Count + Inactive_Count,
    each of which is the number of rows with that pair and that Status
    (0 when the pair does not occur under that Status). *)
Theorem summary_total_counts_pair
    (mst : list Mst.t) (rs : list Agg.t) (row : Final.t)
    (Hrow : In row (reconcile mst rs))
    (Hstate : Final.State row <> NaN)
    (Htype : Final.Customer_Type row <> NaN) :
  exists sr,
    In sr (summarize (reconcile mst rs)) /\
    Summary.State sr = Final.State row /\
    Summary.Customer_Type sr = Final.Customer_Type row /\
    Summary.Total_Count sr
    = agg_size (filter (has_key (key_of row)) (reconcile mst rs)) /\
    Summary.Total_Count sr
    = (Summary.Active_Count sr + Summary.Inactive_Count sr)%Z /\
    Summary.Active_Count sr
    = agg_size (filter (has_key (key_of row))
                       (filter (has_status "Active") (reconcile mst rs))) /\
    Summary.Inactive_Count sr
    = agg_size (filter (has_key (key_of row))
                       (filter (has_status "Inactive") (reconcile mst rs))) /\
    (forall sr',
        In sr' (summarize (reconcile mst rs)) ->
        Summary.State sr' = Final.State row ->
        Summary.Customer_Type sr' = Final.Customer_Type row ->
        sr' = sr) /\
    NoDup (map (fun sr => (Summary.State sr, Summary.Customer_Type sr))
               (summarize (reconcile mst rs))).
Proof.
  set (final := reconcile mst rs) in *.
  set (k := key_of row).
  assert (Hk : key2_notna k = true).
  { unfold k, key_of, key2_notna, notna. simpl.
    destruct (Final.State row), (Final.Customer_Type row); easy. }
  pose proof (reconcile_status mst rs) as Hst. fold final in Hst.
  assert (Hin : In k (summary_keys final)).
  { unfold summary_keys.
    rewrite (in_sorted_unique key2_eqb key2_ltb key2_eqb_eq), in_app_iff,
      !in_groupby_size_keys.
    rewrite Forall_forall in Hst. destruct (Hst row Hrow) as [Es | Es].
    - left. split; [exact Hk|]. exists row. split; [|reflexivity].
      apply filter_In. split; [exact Hrow|]. unfold has_status. now rewrite Es.
    - right. split; [exact Hk|]. exists row. split; [|reflexivity].
      apply filter_In. split; [exact Hrow|]. unfold has_status. now rewrite Es. }
  exists (summary_row
            (k, lookup k (groupby_size (filter (has_status "Active") final)),
                lookup k (groupby_size (filter (has_status "Inactive") final)))).
  split; [apply in_summarize; now exists k|].
  cbn [summary_row Summary.State Summary.Customer_Type Summary.Total_Count
       Summary.Active_Count Summary.Inactive_Count].
  rewrite !(lookup_groupby_size _ k Hk).
  split; [reflexivity|]. split; [reflexivity|].
  split; [symmetry; now apply count_by_status|].
  split; [reflexivity|]. split; [reflexivity|]. split; [reflexivity|].
  split.
  - intros sr' Hsr' Es Et. apply in_summarize in Hsr' as (k' & _ & ->).
    cbn [summary_row Summary.State Summary.Customer_Type] in Es, Et.
    assert (Ek : k' = k) by (unfold k, key_of; destruct k'; simpl in *; congruence).
    subst k'. cbn [summary_row]. now rewrite !(lookup_groupby_size _ k Hk).
  - rewrite summarize_keys.
    apply (NoDup_sorted_unique key2_eqb key2_ltb key2_eqb_eq).
Qed.

Lemma summary_total_counts_pair_witness :
  exists sr,
    In sr (summarize (reconcile Sample.mst_two Sample.aggs_one)) /\
    Summary.State sr = Str "TX" /\
    Summary.Customer_Type sr = Str "Clinic" /\
    Summary.Total_Count sr
    = agg_size (filter (has_key (Str "TX", Str "Clinic"))
                       (reconcile Sample.mst_two Sample.aggs_one)) /\
    Summary.Total_Count sr
    = (Summary.Active_Count sr + Summary.Inactive_Count sr)%Z /\
    Summary.Active_Count sr
    = agg_size (filter (has_key (Str "TX", Str "Clinic"))
                       (filter (has_status "Active")
                               (reconcile Sample.mst_two Sample.aggs_one))) /\
    Summary.Inactive_Count sr
    = agg_size (filter (has_key (Str "TX", Str "Clinic"))
                       (filter (has_status "Inactive")
                               (reconcile Sample.mst_two Sample.aggs_one))) /\
    (forall sr',
        In sr' (summarize (reconcile Sample.mst_two Sample.aggs_one)) ->
        Summary.State sr' = Str "TX" ->
        Summary.Customer_Type sr' = Str "Clinic" ->
        sr' = sr) /\
    NoDup (map (fun sr => (Summary.State sr, Summary.Customer_Type sr))
               (summarize (reconcile Sample.mst_two Sample.aggs_one))).
Proof.
  apply (summary_total_counts_pair Sample.mst_two Sample.aggs_one Sample.row_active).
  - simpl. left. reflexivity.
  - discriminate.
  - discriminate.
Defined.

(** * Further properties of the pipeline *)

(** ** Validation *)






(** ** Loading and cleaning *)



Module PyStrMore.
Import PyStr.




(** Only the text before the joining hyphen counts. *)
Lemma split_first_app (p q : string) :
  split_first "-" (p ++ String "-" q)%string = split_first "-" p.
Proof.
  induction p as [|c r IH]; simpl; [reflexivity|].
  destruct (Ascii.eqb c "-"); [reflexivity|]. now rewrite IH.
Qed.


End PyStrMore.




(** ** Device identifiers *)




(** X10.  The derivation ignores everything from the first hyphen on:
    appending a hyphen and any suffix to a serial does not change its
    identifier. *)
Theorem derive_id_ignores_suffix (p q : string) :
  derive_id (Str (p ++ String "-" q)%string) = derive_id (Str p).
Proof.
  rewrite !derive_id_text. unfold derive_text.
  now rewrite PyStrMore.split_first_app.
Qed.

(** ** Aggregation *)



Lemma omax_assoc (a b c : option Z) : omax (omax a b) c = omax a (omax b c).
Proof. destruct a, b, c; simpl; try reflexivity. now rewrite Z.max_assoc. Qed.


Lemma fold_omax (col : list (option Z)) (a : option Z) :
  fold_left omax col a = omax a (fold_left omax col None).
Proof.
  revert a. induction col as [|v t IH]; intros a; simpl.
  - now destruct a.
  - rewrite (IH (omax a v)), (IH v). apply omax_assoc.
Qed.

Lemma agg_max_fold (col : list (option Z)) : agg_max col = fold_left omax col None.
Proof. reflexivity. Qed.

Lemma agg_max_cons (v : option Z) (col : list (option Z)) :
  agg_max (v :: col) = omax v (agg_max col).
Proof. rewrite !agg_max_fold. simpl. apply fold_omax. Qed.


(** ['max'] is an upper bound of the values present. *)
Lemma agg_max_ge (col : list (option Z)) (t : Z) :
  In (Some t) col -> exists m, agg_max col = Some m /\ (t <= m)%Z.
Proof.
  induction col as [|v col IH]; [easy|].
  rewrite agg_max_cons. intros [-> | Hin].
  - destruct (agg_max col) as [m|]; simpl; eexists; split; try reflexivity; lia.
  - destruct (IH Hin) as (m & -> & Hm).
    destruct v as [x|]; simpl; eexists; split; try reflexivity; lia.
Qed.

(** ['max'] is one of the values. *)
Lemma agg_max_in (col : list (option Z)) (m : Z) :
  agg_max col = Some m -> In (Some m) col.
Proof.
  induction col as [|v col IH]; [discriminate|].
  rewrite agg_max_cons. destruct v as [x|], (agg_max col) as [y|]; simpl; intros [=].
  - destruct (Z.max_spec x y) as [[_ E]|[_ E]]; rewrite E in H0; subst.
    + right. now apply IH.
    + now left.
  - subst. now left.
  - subst. right. now apply IH.
Qed.

Lemma agg_max_none (col : list (option Z)) :
  agg_max col = None <-> Forall (fun v => v = None) col.
Proof.
  induction col as [|v col IH]; [split; [constructor|reflexivity]|].
  rewrite agg_max_cons. split.
  - destruct v as [x|]; simpl.
    + destruct (agg_max col); discriminate.
    + intros E. constructor; [reflexivity|now apply IH].
  - intros H. inversion H as [|? ? Hv Ht]; subst. simpl. now apply IH.
Qed.

(** X12.  The last-run date of an aggregate is the latest parsed
    [Test_date_time] of its group: it bounds every date present in the
    group, it is the date of some row of the group, and it is missing
    exactly when every date of the group is. *)
Theorem last_run_date_is_latest
    (F : Type) (df_r : list (run F)) (g : Agg.t)
    (Hg : In g (runs_summary F df_r)) :
  (forall r t, In r (group F df_r (Agg.Truelab_id g)) ->
               Run.Test_date_time r = Some t ->
               exists m, Agg.Last_Run_Date g = Some m /\ (t <= m)%Z) /\
  (forall m, Agg.Last_Run_Date g = Some m ->
             exists r, In r (group F df_r (Agg.Truelab_id g)) /\
                       Run.Test_date_time r = Some m) /\
  (Agg.Last_Run_Date g = None <->
   Forall (fun r => Run.Test_date_time r = None) (group F df_r (Agg.Truelab_id g))).
Proof.
  destruct (in_runs_summary F df_r g Hg) as (_ & _ & Hd & _). rewrite Hd.
  split; [|split].
  - intros r t Hr Et. apply agg_max_ge. rewrite <- Et. now apply in_map.
  - intros m Hm. apply agg_max_in, in_map_iff in Hm as (r & E & Hr). now exists r.
  - rewrite agg_max_none, Forall_map. reflexivity.
Qed.

Lemma last_run_date_is_latest_witness :
  (forall r t, In r (group Z Sample.df_lab_then_blank (Str "TL1")) ->
               Run.Test_date_time r = Some t ->
               exists m, Agg.Last_Run_Date Sample.agg_lab = Some m /\ (t <= m)%Z) /\
  (forall m, Agg.Last_Run_Date Sample.agg_lab = Some m ->
             exists r, In r (group Z Sample.df_lab_then_blank (Str "TL1")) /\
                       Run.Test_date_time r = Some m) /\
  (Agg.Last_Run_Date Sample.agg_lab = None <->
   Forall (fun r => Run.Test_date_time r = None)
          (group Z Sample.df_lab_then_blank (Str "TL1"))).
Proof.
  apply (last_run_date_is_latest Z Sample.df_lab_then_blank Sample.agg_lab).
  simpl. left. reflexivity.
Defined.

Lemma sumZ_add {K} (f g : K -> Z) (ks : list K) :
  sumZ (map (fun k => (f k + g k)%Z) ks) = (sumZ (map f ks) + sumZ (map g ks))%Z.
Proof. induction ks as [|k t IH]; simpl; [reflexivity|]. rewrite IH. lia. Qed.

Section GroupSizes.
Context {K R : Type} (eqb : K -> K -> bool) (kf : R -> K).
Hypothesis eqb_eq : forall a b, eqb a b = true <-> a = b.

Lemma sumZ_indicator_notin (x : K) (ks : list K) :
  ~ In x ks -> sumZ (map (fun k => if eqb x k then 1%Z else 0%Z) ks) = 0%Z.
Proof.
  induction ks as [|k t IH]; simpl; [reflexivity|]. intros Hx.
  destruct (eqb x k) eqn:E.
  - apply eqb_eq in E. destruct Hx. now left.
  - rewrite IH; [reflexivity|]. intros H. apply Hx. now right.
Qed.

Lemma sumZ_indicator (x : K) (ks : list K) :
  NoDup ks -> In x ks ->
  sumZ (map (fun k => if eqb x k then 1%Z else 0%Z) ks) = 1%Z.
Proof.
  induction 1 as [|k t Hk Hnd IH]; simpl; [easy|]. intros Hx.
  destruct (eqb x k) eqn:E.
  - apply eqb_eq in E. subst k. now rewrite sumZ_indicator_notin.
  - destruct Hx as [->|Hx]; [|now rewrite IH].
    assert (eqb x x = true) by now apply eqb_eq. congruence.
Qed.

(** The groups of distinct keys that cover a table partition it. *)
Lemma sum_group_sizes (ks : list K) (rows : list R) :
  NoDup ks -> (forall r, In r rows -> In (kf r) ks) ->
  sumZ (map (fun k => agg_size (filter (fun r => eqb (kf r) k) rows)) ks)
  = agg_size rows.
Proof.
  intros Hnd. induction rows as [|r t IH]; intros Hcov.
  - simpl. induction ks as [|k ks' IHk]; simpl; [reflexivity|].
    inversion Hnd; subst. now rewrite IHk.
  - rewrite (map_ext _ (fun k => ((if eqb (kf r) k then 1 else 0)
                                  + agg_size (filter (fun r => eqb (kf r) k) t))%Z)).
    + rewrite sumZ_add, sumZ_indicator, IH.
      * unfold agg_size. simpl length. lia.
      * intros r' Hr'. apply Hcov. now right.
      * exact Hnd.
      * apply Hcov. now left.
    + intros k. simpl. unfold agg_size.
      destruct (eqb (kf r) k); simpl length; lia.
Qed.
End GroupSizes.

Lemma filter_comm {A} (p q : A -> bool) (l : list A) :
  filter p (filter q l) = filter q (filter p l).
Proof.
  induction l as [|a t IH]; simpl; [reflexivity|].
  destruct (p a) eqn:Hp, (q a) eqn:Hq; simpl; rewrite ?Hp, ?Hq, IH; reflexivity.
Qed.


(** ** Key order *)




Section SortedKeysOrder.
Context {K : Type} (eqb ltb : K -> K -> bool).
Hypothesis eqb_eq : forall a b, eqb a b = true <-> a = b.
Hypothesis ltb_total : forall a b, ltb a b = false -> a <> b -> ltb b a = true.

Local Notation "'lt'" := (fun a b : K => ltb a b = true) (only parsing).



End SortedKeysOrder.


(** ** Reconciliation *)

Lemma with_index_nth (j i : nat) (ms : list Merged.t) (row : Final.t) :
  nth_error (with_index j ms) i = Some row ->
  exists m, nth_error ms i = Some m /\ row = final_row (j + i) m.
Proof.
  revert j i. induction ms as [|m t IH]; intros j i; simpl.
  - destruct i; discriminate.
  - destruct i as [|i]; simpl.
    + intros [= <-]. exists m. now rewrite Nat.add_0_r.
    + intros H. destruct (IH (S j) i H) as (m' & Hm' & ->).
      exists m'. split; [exact Hm'|]. f_equal. lia.
Qed.

(** X15.  The [index] column numbers the report rows from 0 in row order. *)
Theorem index_is_position
    (mst : list Mst.t) (rs : list Agg.t) (i : nat) (row : Final.t)
    (Hrow : nth_error (reconcile mst rs) i = Some row) :
  Final.index row = Z.of_nat i.
Proof.
  destruct (with_index_nth 0 i _ row Hrow) as (m & _ & ->). reflexivity.
Qed.

Lemma index_is_position_witness :
  Final.index Sample.row_inactive = Z.of_nat 1.
Proof.
  apply (index_is_position Sample.mst_two Sample.aggs_one 1 Sample.row_inactive).
  reflexivity.
Defined.

Lemma joined_nonempty (a : Mst.t) (rs : list Agg.t) :
  exists m t, joined a rs = m :: t /\ Merged.left m = a.
Proof.
  unfold joined. destruct (matches a rs) as [|g gs]; simpl; eauto.
Qed.

Lemma in_with_index_map (i : nat) (ms : list Merged.t) (m : Merged.t) :
  In m ms -> exists row, In row (with_index i ms) /\ Final.account row = Merged.left m.
Proof.
  revert i. induction ms as [|m' t IH]; intros i; simpl; [easy|].
  intros [->|H].
  - exists (final_row i m). split; [now left|apply final_row_account].
  - destruct (IH (S i) H) as (row & Hrow & E). exists row. auto.
Qed.

(** X16.  Whatever the aggregate table, the left join loses no account and
    invents none: every account has a report row, every report row is the
    row of an account, and the report has at least as many rows as there
    are accounts. *)
Theorem left_join_keeps_every_account (mst : list Mst.t) (rs : list Agg.t) :
  (forall a, In a mst ->
             exists row, In row (reconcile mst rs) /\ Final.account row = a) /\
  (forall row, In row (reconcile mst rs) -> In (Final.account row) mst) /\
  (length mst <= length (reconcile mst rs))%nat.
Proof.
  split; [|split].
  - intros a Ha. destruct (joined_nonempty a rs) as (m & t & E & El).
    assert (Hm : In m (merge_left mst rs)).
    { apply in_merge_left. exists a. split; [exact Ha|]. rewrite E. now left. }
    destruct (in_with_index_map 0 _ m Hm) as (row & Hrow & Er).
    exists row. split; [exact Hrow|congruence].
  - intros row Hrow.
    destruct (in_reconcile mst rs row Hrow) as (j & m & _ & -> & Hl & _).
    now rewrite final_row_account.
  - unfold reconcile. rewrite <- (length_map Final.account), with_index_accounts,
      length_map.
    unfold merge_left. induction mst as [|a t IH]; simpl; [lia|].
    rewrite length_app. destruct (joined_nonempty a rs) as (m & t' & -> & _).
    simpl. lia.
Qed.

(** X17.  An Active report row copies an aggregate of its device
    identifier: its total run count, last-run date and dashboard lab name
    are those of a row of the aggregate table with the same identifier. *)
Theorem active_row_copies_aggregate
    (mst : list Mst.t) (rs : list Agg.t) (row : Final.t)
    (Hrow : In row (reconcile mst rs))
    (Hactive : Final.Status row = "Active") :
  exists g,
    In g rs /\
    Agg.Truelab_id g = Final.Truelab_id row /\
    Final.Total_Runs row = Agg.Total_Runs g /\
    Final.Last_Run_Date row = Agg.Last_Run_Date g /\
    Final.Lab_name_Dashboard row = Agg.Lab_name_Dashboard g.
Proof.
  destruct (reconcile_cases mst rs row Hrow)
    as (j & m & _ & E & [(Hn & _) | (g & Hg & Hk & Ht & Hd & Hl)]).
  - subst row. simpl in Hactive. rewrite Hn in Hactive. discriminate.
  - exists g. subst row. simpl in *. rewrite Ht. auto.
Qed.

Lemma active_row_copies_aggregate_witness :
  exists g,
    In g Sample.aggs_one /\
    Agg.Truelab_id g = Final.Truelab_id Sample.row_active /\
    Final.Total_Runs Sample.row_active = Agg.Total_Runs g /\
    Final.Last_Run_Date Sample.row_active = Agg.Last_Run_Date g /\
    Final.Lab_name_Dashboard Sample.row_active = Agg.Lab_name_Dashboard g.
Proof.
  apply (active_row_copies_aggregate Sample.mst_two Sample.aggs_one Sample.row_active).
  - simpl. left. reflexivity.
  - reflexivity.
Defined.

(** ** The report in terms of the cleaned run log *)

Lemma filter_eqb_in (ks : list cell) (k : cell) :
  NoDup ks -> In k ks -> filter (fun x => cell_eqb x k) ks = [k].
Proof.
  induction 1 as [|h t Hh Hnd IH]; simpl; [easy|]. intros Hin.
  destruct (cell_eqb h k) eqn:E.
  - apply cell_eqb_eq in E. subst h. f_equal.
    destruct (filter (fun x => cell_eqb x k) t) as [|x t'] eqn:Ef; [reflexivity|].
    assert (Hx : In x (filter (fun x => cell_eqb x k) t)) by (rewrite Ef; now left).
    apply filter_In in Hx as [Hx Ex]. apply cell_eqb_eq in Ex. subst x. contradiction.
  - destruct Hin as [->|Hin]; [now rewrite cell_eqb_refl in E|]. now apply IH.
Qed.

Lemma filter_eqb_notin (ks : list cell) (k : cell) :
  ~ In k ks -> filter (fun x => cell_eqb x k) ks = [].
Proof.
  intros Hk. destruct (filter (fun x => cell_eqb x k) ks) as [|x t] eqn:Ef; [reflexivity|].
  assert (Hx : In x (filter (fun x => cell_eqb x k) ks)) by (rewrite Ef; now left).
  apply filter_In in Hx as [Hx Ex]. apply cell_eqb_eq in Ex. subst x. contradiction.
Qed.

Section ReportFacts.
Variable F : Type.

Lemma runs_summary_aggregate (df_r : list (run F)) :
  runs_summary F df_r = map (aggregate F df_r) (group_keys F df_r).
Proof. reflexivity. Qed.

Lemma group_nonempty_key (df_r : list (run F)) (k : cell) :
  k <> NaN -> (In k (group_keys F df_r) <-> group F df_r k <> []).
Proof.
  intros Hk. rewrite in_group_keys. split.
  - intros [_ (r & Hr & E)] Hnil.
    assert (H : In r (group F df_r k)).
    { unfold group. apply filter_In. split; [exact Hr|now apply cell_eqb_eq]. }
    now rewrite Hnil in H.
  - intros Hne. split; [exact Hk|].
    destruct (group F df_r k) as [|r t] eqn:E; [contradiction|].
    assert (H : In r (group F df_r k)) by (rewrite E; now left).
    unfold group in H. apply filter_In in H as [Hr Er]. apply cell_eqb_eq in Er.
    now exists r.
Qed.

(** The join of one account against the aggregates of a run log. *)
Lemma joined_runs_summary (df_r : list (run F)) (a : Mst.t) :
  Mst.Truelab_id a <> NaN ->
  joined a (runs_summary F df_r)
  = [joined_group F a (group F df_r (Mst.Truelab_id a))].
Proof.
  intros Hk. unfold joined, matches. rewrite runs_summary_aggregate.
  rewrite filter_map_swap. simpl.
  destruct (group F df_r (Mst.Truelab_id a)) as [|r t] eqn:Eg.
  - rewrite filter_eqb_notin; [reflexivity|].
    rewrite (group_nonempty_key df_r _ Hk), Eg. auto.
  - rewrite filter_eqb_in.
    + simpl. unfold joined_group. now rewrite Eg.
    + apply (NoDup_sorted_unique cell_eqb cell_ltb cell_eqb_eq).
    + apply (group_nonempty_key df_r _ Hk). rewrite Eg. discriminate.
Qed.

End ReportFacts.


(** X18.  With the aggregates of a cleaned run log on the right, a report
    row with a device identifier is determined by the cleaned runs of that
    device: its total run count is the number of them with a patient
    identifier, its last-run date the latest of their dates and its
    dashboard lab name the last lab name present, all three empty-valued
    when the device has no run. *)
Theorem report_row_by_group
    (F : Type) (df_r : list (run F)) (mst : list Mst.t) (row : Final.t)
    (Hrow : In row (reconcile mst (runs_summary F df_r)))
    (Hkey : Final.Truelab_id row <> NaN) :
  Final.Total_Runs row
  = agg_size (filter (fun c => notna (Run.Patient_id c))
                     (group F df_r (Final.Truelab_id row))) /\
  Final.Last_Run_Date row
  = agg_max (map Run.Test_date_time (group F df_r (Final.Truelab_id row))) /\
  Final.Lab_name_Dashboard row
  = agg_last (map Run.Lab_name (group F df_r (Final.Truelab_id row))).
Proof.
  destruct (in_reconcile _ _ row Hrow) as (j & m & _ & E & _ & Hj).
  assert (Ek : Final.Truelab_id row = Mst.Truelab_id (Merged.left m)) by now subst row.
  rewrite Ek in *. rewrite (joined_runs_summary F df_r _ Hkey) in Hj.
  destruct Hj as [Hm|[]]. rewrite <- agg_count_map.
  remember (group F df_r (Mst.Truelab_id (Merged.left m))) as g eqn:Eg.
  clear Eg Ek Hkey Hrow. subst row. rewrite <- Hm.
  destruct g; simpl; auto.
Qed.

Lemma report_row_by_group_witness :
  Final.Total_Runs Sample.row_active
  = agg_size (filter (fun c => notna (Run.Patient_id c))
                     (group Z Sample.df_one (Str "TL"))) /\
  Final.Last_Run_Date Sample.row_active
  = agg_max (map Run.Test_date_time (group Z Sample.df_one (Str "TL"))) /\
  Final.Lab_name_Dashboard Sample.row_active
  = agg_last (map Run.Lab_name (group Z Sample.df_one (Str "TL"))).
Proof.
  apply (report_row_by_group Z Sample.df_one Sample.mst_two Sample.row_active).
  - simpl. left. reflexivity.
  - discriminate.
Defined.

(** ** End to end *)



Section EndToEnd.
Variable F : Type.
Variable parse_datetime : cell -> option Z.
Variable parse_numeric : cell -> option F.


End EndToEnd.









(** ** Summary *)

Lemma in_summary_keys (final : list Final.t) (k : key2) :
  In k (summary_keys final) <->
  key2_notna k = true /\
  exists r, In r final /\ key_of r = k /\
            (Final.Status r = "Active" \/ Final.Status r = "Inactive").
Proof.
  unfold summary_keys.
  rewrite (in_sorted_unique key2_eqb key2_ltb key2_eqb_eq), in_app_iff,
    !in_groupby_size_keys.
  split.
  - intros [[Hk (r & Hr & E)] | [Hk (r & Hr & E)]];
      (split; [exact Hk|]); apply filter_In in Hr as [Hr Hs];
      apply String.eqb_eq in Hs; exists r; auto.
  - intros [Hk (r & Hr & E & [Hs | Hs])]; [left|right];
      (split; [exact Hk|]); exists r; (split; [|exact E]);
      apply filter_In; (split; [exact Hr|]); unfold has_status; now rewrite Hs.
Qed.

Lemma summary_row_counts (final : list Final.t) (k : key2) :
  key2_notna k = true ->
  summary_row (k, lookup k (groupby_size (filter (has_status "Active") final)),
                  lookup k (groupby_size (filter (has_status "Inactive") final)))
  = Summary.mk (fst k) (snd k)
      (agg_size (filter (has_key k) (filter (has_status "Active") final)))
      (agg_size (filter (has_key k) (filter (has_status "Inactive") final)))
      (agg_size (filter (has_key k) (filter (has_status "Active") final))
       + agg_size (filter (has_key k) (filter (has_status "Inactive") final)))%Z.
Proof.
  intros Hk. cbn [summary_row]. now rewrite !(lookup_groupby_size _ k Hk).
Qed.

(** X22.  Every summary row stands for report rows: its State and
    Customer Type are both present and are those of some Active or
    Inactive report row, its two counts are the numbers of Active and of
    Inactive report rows with that pair, its Total_Count is their sum, and
    that sum is at least 1. *)
Theorem summary_row_sound
    (final : list Final.t) (sr : Summary.t)
    (Hsr : In sr (summarize final)) :
  Summary.State sr <> NaN /\
  Summary.Customer_Type sr <> NaN /\
  (exists r, In r final /\
             Final.State r = Summary.State sr /\
             Final.Customer_Type r = Summary.Customer_Type sr) /\
  Summary.Active_Count sr
  = agg_size (filter (has_key (Summary.State sr, Summary.Customer_Type sr))
                     (filter (has_status "Active") final)) /\
  Summary.Inactive_Count sr
  = agg_size (filter (has_key (Summary.State sr, Summary.Customer_Type sr))
                     (filter (has_status "Inactive") final)) /\
  Summary.Total_Count sr
  = (Summary.Active_Count sr + Summary.Inactive_Count sr)%Z /\
  (1 <= Summary.Total_Count sr)%Z.
Proof.
  apply in_summarize in Hsr as (k & Hk & ->).
  apply in_summary_keys in Hk as (Hna & r & Hr & Ek & Hs).
  rewrite (summary_row_counts final k Hna).
  cbn [Summary.State Summary.Customer_Type Summary.Active_Count
       Summary.Inactive_Count Summary.Total_Count].
  destruct k as [s t]. cbn [fst snd].
  unfold key2_notna, notna in Hna. cbn [fst snd] in Hna.
  apply andb_true_iff in Hna as [Hs1 Ht1].
  split; [now destruct s|]. split; [now destruct t|].
  split; [exists r; unfold key_of in Ek; split; [exact Hr|split; congruence]|].
  split; [reflexivity|]. split; [reflexivity|]. split; [reflexivity|].
  assert (Hpos : forall st, Final.Status r = st ->
            (1 <= agg_size (filter (has_key (s, t)) (filter (has_status st) final)))%Z).
  { intros st Est.
    assert (Hin : In r (filter (has_key (s, t)) (filter (has_status st) final))).
    { apply filter_In. split; [|now apply has_key_iff].
      apply filter_In. split; [exact Hr|]. unfold has_status. rewrite Est.
      apply String.eqb_refl. }
    unfold agg_size.
    destruct (filter (has_key (s, t)) (filter (has_status st) final));
      [destruct Hin|simpl length; lia]. }
  assert (Hnn : forall st,
            (0 <= agg_size (filter (has_key (s, t)) (filter (has_status st) final)))%Z).
  { intros st. unfold agg_size. lia. }
  destruct Hs as [Hs | Hs].
  - pose proof (Hpos _ Hs). pose proof (Hnn "Inactive"). lia.
  - pose proof (Hpos _ Hs). pose proof (Hnn "Active"). lia.
Qed.

Lemma summary_row_sound_witness :
  Summary.State Sample.summary_tx <> NaN /\
  Summary.Customer_Type Sample.summary_tx <> NaN /\
  (exists r, In r [Sample.row_active; Sample.row_inactive] /\
             Final.State r = Summary.State Sample.summary_tx /\
             Final.Customer_Type r = Summary.Customer_Type Sample.summary_tx) /\
  Summary.Active_Count Sample.summary_tx
  = agg_size (filter (has_key (Str "TX", Str "Clinic"))
                     (filter (has_status "Active")
                             [Sample.row_active; Sample.row_inactive])) /\
  Summary.Inactive_Count Sample.summary_tx
  = agg_size (filter (has_key (Str "TX", Str "Clinic"))
                     (filter (has_status "Inactive")
                             [Sample.row_active; Sample.row_inactive])) /\
  Summary.Total_Count Sample.summary_tx
  = (Summary.Active_Count Sample.summary_tx
     + Summary.Inactive_Count Sample.summary_tx)%Z /\
  (1 <= Summary.Total_Count Sample.summary_tx)%Z.
Proof.
  apply (summary_row_sound [Sample.row_active; Sample.row_inactive] Sample.summary_tx).
  simpl. left. reflexivity.
Defined.

(** X23.  The summary counts every report row with a State and a Customer
    Type exactly once: the Total_Counts add up to the number of report
    rows in which neither is missing. *)
Theorem summary_totals_add_up (mst : list Mst.t) (rs : list Agg.t) :
  sumZ (map Summary.Total_Count (summarize (reconcile mst rs)))
  = agg_size (filter (fun r => key2_notna (key_of r)) (reconcile mst rs)).
Proof.
  set (final := reconcile mst rs).
  set (present := fun r : Final.t => key2_notna (key_of r)).
  assert (Hsum : forall st,
    (st = "Active" \/ st = "Inactive") ->
    sumZ (map (fun k => agg_size (filter (has_key k) (filter (has_status st) final)))
              (summary_keys final))
    = agg_size (filter present (filter (has_status st) final))).
  { intros st Hst.
    rewrite <- (sum_group_sizes key2_eqb key_of key2_eqb_eq (summary_keys final)).
    - apply f_equal, map_ext_in. intros k Hk.
      apply in_summary_keys in Hk as (Hna & _).
      f_equal. symmetry. rewrite (filter_comm _ present).
      apply forallb_filter_id, forallb_forall. intros r Hr.
      apply filter_In in Hr as [_ Hr]. apply has_key_iff in Hr.
      unfold present. now rewrite Hr.
    - apply (NoDup_sorted_unique key2_eqb key2_ltb key2_eqb_eq).
    - intros r Hr. apply filter_In in Hr as [Hr Hp].
      apply filter_In in Hr as [Hr Hs]. apply String.eqb_eq in Hs.
      apply in_summary_keys. split; [exact Hp|].
      exists r. split; [exact Hr|]. split; [reflexivity|].
      destruct Hst; subst; auto. }
  unfold summarize, merge_outer. rewrite !map_map. fold (summary_keys final).
  rewrite (map_ext_in _
             (fun k => (agg_size (filter (has_key k) (filter (has_status "Active") final))
                        + agg_size (filter (has_key k)
                                           (filter (has_status "Inactive") final)))%Z)).
  - rewrite sumZ_add, !Hsum by auto.
    symmetry. apply count_by_status, reconcile_status.
  - intros k Hk. apply in_summary_keys in Hk as (Hna & _).
    fold final. now rewrite (summary_row_counts final k Hna).
Qed.
